(** * go-user-service: the create-user and list-users handlers

    A shallow embedding of [user/main.go].  The two HTTP handlers are
    straight-line code around three external services (an object store,
    a message queue and a relational store).  The handlers are embedded
    as computations in a state monad over a [World] that holds what the
    services store, how they answer during the request, and a record of
    every call made to them. *)

From Stdlib Require Import ZArith.
From Stdlib.Strings Require Import Byte.
From stdpp Require Import gmap strings list fin_maps.

Local Set Warnings "-register-all".
Local Open Scope Z_scope.
Local Open Scope string_scope.

(** ** Values of the program *)

(** A Go [error] is carried as its message. *)
Definition error := string.

(** A Go [(T, error)] result pair with exactly one side meaningful. *)
Inductive result (A : Type) : Type :=
| Ok (a : A)
| Err (e : error).
Arguments Ok {A} a.
Arguments Err {A} e.

(** [fmt.Errorf("<prefix>: %v", err)]. *)
Definition Errorf (pre : string) (err : error) : error := pre +:+ ": " +:+ err.

(** A Go slice value: [None] is the nil slice, [Some l] a non-nil slice
    with elements [l]. *)
Definition slice (A : Type) : Type := option (list A).

Definition elems {A} (s : slice A) : list A := default [] s.

(** Go's [append(s, x)]: the result is never nil. *)
Definition append {A} (s : slice A) (x : A) : slice A := Some (elems s ++ [x])%list.

(** [toPtr] returns a non-nil pointer to its argument. *)
Definition toPtr {T} (v : T) : option T := Some v.

(** [type Config struct], flattened. *)
Record Config := mkConfig {
  Database_ConnectionString : string;
  Azure_BlobConnectionString : string;
  Azure_ServiceBusConnectionString : string
}.

(** [time.Time] as an instant: seconds and nanoseconds elapsed since
    January 1, year 1, 00:00:00 UTC.  Go's zero [Time] is that instant. *)
Record Time := mkTime { sec : Z; nsec : Z }.

Definition Time_zero : Time := mkTime 0 0.

(** [type User struct]. *)
Record User := mkUser {
  ID : Z;
  Name : string;
  Email : string;
  Link : string;
  CreatedAt : Time
}.

(** ** JSON documents

    What [encoding/json] emits, as a document tree.  A [time.Time]
    leaf is kept as such (the encoder prints it as an RFC 3339 string). *)
Inductive jvalue : Type :=
| JNull
| JNumber (z : Z)
| JString (s : string)
| JTime (t : Time)
| JArray (items : list jvalue)
| JObject (fields : list (string * jvalue)).

(** The encoding of a [User], fields in declaration order under the names
    of their [json:"..."] tags. *)
Definition json_User (u : User) : jvalue :=
  JObject [ ("id", JNumber (ID u));
            ("name", JString (Name u));
            ("email", JString (Email u));
            ("link", JString (Link u));
            ("createdAt", JTime (CreatedAt u)) ].

(** The encoding of a [[]User]: a nil slice encodes as [null], any other
    slice as an array. *)
Definition json_Users (s : slice User) : jvalue :=
  match s with
  | None => JNull
  | Some l => JArray (json_User <$> l)
  end.

(** The encoding of a [map[string]string] given by its entries; the
    encoder emits the keys in sorted order. *)
Definition json_map (kvs : list (string * string)) : jvalue :=
  JObject (prod_map id JString <$> kvs).

(** Field lookup in a JSON object. *)
Fixpoint assoc (k : string) (fields : list (string * jvalue)) : option jvalue :=
  match fields with
  | [] => None
  | (k', v) :: rest => if decide (k = k') then Some v else assoc k rest
  end.

Definition field (k : string) (v : jvalue) : option jvalue :=
  match v with
  | JObject fields => assoc k fields
  | _ => None
  end.

(** ** The response writer *)

Definition StatusOK : Z := 200.
Definition StatusBadRequest : Z := 400.
Definition StatusInternalServerError : Z := 500.

(** What has been written to the body: a line of text ([http.Error]) or
    a JSON document followed by a newline ([Encoder.Encode]). *)
Inductive chunk : Type :=
| Line (s : string)
| Doc (v : jvalue).

(** [wroteHeader] is the status line once it has been sent. *)
Record ResponseWriter := mkWriter {
  wroteHeader : option Z;
  body : list chunk
}.

Definition newWriter : ResponseWriter := mkWriter None [].

(** [w.WriteHeader(code)]: only the first call has an effect. *)
Definition WriteHeader (w : ResponseWriter) (code : Z) : ResponseWriter :=
  match wroteHeader w with
  | Some _ => w
  | None => mkWriter (Some code) (body w)
  end.

(** [w.Write]: sends [200 OK] first if no status has been sent. *)
Definition Write (w : ResponseWriter) (c : chunk) : ResponseWriter :=
  let w := WriteHeader w StatusOK in
  mkWriter (wroteHeader w) (body w ++ [c])%list.

(** [http.Error(w, msg, code)]. *)
Definition http_Error (w : ResponseWriter) (msg : string) (code : Z) : ResponseWriter :=
  Write (WriteHeader w code) (Line msg).

(** [json.NewEncoder(w).Encode(v)] for an already encoded document. *)
Definition Encode (w : ResponseWriter) (v : jvalue) : ResponseWriter :=
  Write w (Doc v).

(** The status the client receives. *)
Definition status (w : ResponseWriter) : Z := default StatusOK (wroteHeader w).

(** ** The request *)

Record FileHeader := mkFileHeader { Filename : string }.

(** A parsed multipart request: the error of the multipart parser if the
    body is malformed, the form values and the file parts (content and
    header) under each field name. *)
Record Request := mkRequest {
  MultipartErr : option error;
  Form : gmap string (list string);
  File : gmap string (list (list byte * FileHeader))
}.

Definition ErrMissingFile : error := "http: no such file".

(** [r.FormValue(key)]: the first value of the field, or the empty
    string. *)
Definition FormValue (r : Request) (key : string) : string :=
  match Form r !! key with
  | Some (v :: _) => v
  | _ => ""
  end.

(** [r.FormFile(key)]: the first file part of the field. *)
Definition FormFile (r : Request) (key : string) : result (list byte * FileHeader) :=
  match MultipartErr r with
  | Some e => Err e
  | None =>
      match File r !! key with
      | Some (f :: _) => Ok f
      | _ => Err ErrMissingFile
      end
  end.

(** ** The external services *)

(** An object of the blob store: its bytes and its metadata map
    ([map[string]*string]). *)
Record Blob := mkBlob {
  content : list byte;
  metadata : gmap string (option string)
}.

(** An [azservicebus.Message]: the body is the JSON document the payload
    bytes spell; the application properties are empty when the field is
    left nil. *)
Record Message := mkMessage {
  Body : jvalue;
  ApplicationProperties : gmap string string
}.

(** One turn of a row cursor on which [rows.Next()] returns true: either
    [rows.Scan] fills the five destinations, or it returns an error. *)
Inductive RowStep : Type :=
| Scanned (id : Z) (name email link : string) (createdAt : Time)
| ScanFails (e : error).

(** A row cursor ([*sql.Rows]): the turns on which [Next] returns true.
    After them [Next] returns false, either because the result set is
    exhausted ([iterErr = None]) or because fetching the next row failed
    ([iterErr = Some e], what [rows.Err()] would report). *)
Record Rows := mkRows {
  steps : list RowStep;
  iterErr : option error
}.

(** The relational store behind the handle [db]: its answer to a query
    text. *)
Record DB := mkDB { Query : string -> result Rows }.

(** How the cloud services answer during one request: [None] where the
    operation succeeds. *)
Record Answers := mkAnswers {
  blobClientErr : option error;
  uploadErr : option error;
  busClientErr : option error;
  senderErr : option error;
  sendErr : option error
}.

(** The calls a request makes to the services, with their arguments. *)
Inductive Call : Type :=
| BlobNewClient (conn : string)
| BlobUploadStream (container name : string) (data : list byte)
                   (meta : gmap string (option string))
| BusNewClient (conn : string)
| BusNewSender (queue : string)
| BusSendMessage (queue : string) (m : Message)
| BusSenderClose (queue : string)
| BusClientClose
| DbQuery (q : string)
| DbRowsClose.

Inductive logarg : Type :=
| ArgErr (e : error)
| ArgDoc (v : jvalue).

(** Everything outside the handler: the objects in the blob store by
    (container, name), the messages in each queue, the process-wide
    database handle [db], the answers of the services, and the calls and
    log lines produced so far. *)
Record World := mkWorld {
  blobs : gmap (string * string) Blob;
  queues : gmap string (list Message);
  db : DB;
  answers : Answers;
  calls : list Call;
  logs : list (string * logarg)
}.

(** ** The monad of the handlers *)

Definition M (A : Type) : Type := World -> A * World.

#[global] Instance M_ret : MRet M := fun A (a : A) (w : World) => (a, w).
#[global] Instance M_bind : MBind M :=
  fun A B (f : A -> M B) (m : M A) (w : World) => let (a, w') := m w in f a w'.

Definition call (c : Call) : M unit :=
  fun w => (tt, mkWorld (blobs w) (queues w) (db w) (answers w)
                        (calls w ++ [c])%list (logs w)).

Definition ask : M Answers := fun w => (answers w, w).

(** [log.Printf(format, arg)]. *)
Definition log_Printf (format : string) (arg : logarg) : M unit :=
  fun w => (tt, mkWorld (blobs w) (queues w) (db w) (answers w) (calls w)
                        (logs w ++ [(format, arg)])%list).

Definition put_blob (container name : string) (b : Blob) : M unit :=
  fun w => (tt, mkWorld (<[(container, name) := b]> (blobs w)) (queues w) (db w)
                        (answers w) (calls w) (logs w)).

Definition enqueue (queue : string) (m : Message) : M unit :=
  fun w => (tt, mkWorld (blobs w)
                        (<[queue := (default [] (queues w !! queue) ++ [m])%list]> (queues w))
                        (db w) (answers w) (calls w) (logs w)).

(** *** Blob store client *)

Record BlobClient := mkBlobClient { blobConn : string }.

Definition azblob_NewClientFromConnectionString (conn : string) : M (result BlobClient) :=
  call (BlobNewClient conn);;
  a ← ask;
  match blobClientErr a with
  | Some e => mret (Err e)
  | None => mret (Ok (mkBlobClient conn))
  end.

(** [client.UploadStream(ctx, container, name, body, options)]: on success
    the object is stored under (container, name), replacing any object
    already there; a failed transfer is taken to leave the store as it
    was. *)
Definition UploadStream (client : BlobClient) (container name : string)
    (data : list byte) (meta : gmap string (option string)) : M (option error) :=
  call (BlobUploadStream container name data meta);;
  a ← ask;
  match uploadErr a with
  | Some e => mret (Some e)
  | None => put_blob container name (mkBlob data meta);; mret None
  end.

(** *** Service bus client *)

Record BusClient := mkBusClient { busConn : string }.
Record Sender := mkSender { queueName : string }.

Definition azservicebus_NewClientFromConnectionString (conn : string) : M (result BusClient) :=
  call (BusNewClient conn);;
  a ← ask;
  match busClientErr a with
  | Some e => mret (Err e)
  | None => mret (Ok (mkBusClient conn))
  end.

Definition NewSender (client : BusClient) (queue : string) : M (result Sender) :=
  call (BusNewSender queue);;
  a ← ask;
  match senderErr a with
  | Some e => mret (Err e)
  | None => mret (Ok (mkSender queue))
  end.

Definition SendMessage (sender : Sender) (m : Message) : M (option error) :=
  call (BusSendMessage (queueName sender) m);;
  a ← ask;
  match sendErr a with
  | Some e => mret (Some e)
  | None => enqueue (queueName sender) m;; mret None
  end.

Definition Sender_Close (sender : Sender) : M unit := call (BusSenderClose (queueName sender)).
Definition BusClient_Close (client : BusClient) : M unit := call BusClientClose.

(** [json.Marshal(user)]: a [User] has no field whose encoding can fail
    short of an out-of-range year, so the document is always produced. *)
Definition json_Marshal (user : User) : result jvalue := Ok (json_User user).

(** *** Relational store *)

Definition the_db : M DB := fun w => (db w, w).

(** [db.Query(q)] on the process-wide handle. *)
Definition db_Query (q : string) : M (result Rows) :=
  call (DbQuery q);;
  d ← the_db;
  mret (Query d q).

Definition Rows_Close : M unit := call DbRowsClose.

(** ** The program *)

(** [uploadToBlobStorage(file, filename, config)]. *)
Definition uploadToBlobStorage (file : list byte) (filename : string) (config : Config)
    : M (result string) :=
  r ← azblob_NewClientFromConnectionString (Azure_BlobConnectionString config);
  match r with
  | Err err => mret (Err (Errorf "failed to create blob client" err))
  | Ok blobServiceClient =>
      let blobURL := "profile-pictures" +:+ "/" +:+ filename in
      e ← UploadStream blobServiceClient "profile-pictures" filename file
            {[ "ContentType" := toPtr "image/jpeg" ]};
      match e with
      | Some err => mret (Err (Errorf "failed to upload to blob" err))
      | None => mret (Ok blobURL)
      end
  end.

(** [sendToServiceBus(user, config)]; the deferred [Close] calls run when
    the function returns, the sender's before the client's. *)
Definition sendToServiceBus (user : User) (config : Config) : M (option error) :=
  r ← azservicebus_NewClientFromConnectionString (Azure_ServiceBusConnectionString config);
  match r with
  | Err err => mret (Some (Errorf "failed to create service bus client" err))
  | Ok client =>
      ret1 ← (r ← NewSender client "user-queue";
              match r with
              | Err err => mret (Some (Errorf "failed to create sender" err))
              | Ok sender =>
                  ret2 ← match json_Marshal user with
                         | Err err => mret (Some (Errorf "failed to marshal user data" err))
                         | Ok userData =>
                             let message := mkMessage userData ∅ in
                             e ← SendMessage sender message;
                             match e with
                             | Some err =>
                                 mret (Some (Errorf "failed to send message to service bus" err))
                             | None =>
                                 log_Printf "User data sent to Service Bus: %s" (ArgDoc userData);;
                                 mret None
                             end
                         end;
                  Sender_Close sender;;
                  mret ret2
              end);
      BusClient_Close client;;
      mret ret1
  end.

(** [createUser(w, r, config)]; returns the writer as the handler leaves
    it. *)
Definition createUser (w : ResponseWriter) (r : Request) (config : Config)
    : M ResponseWriter :=
  let name := FormValue r "name" in
  let email := FormValue r "email" in
  match FormFile r "photo" with
  | Err _ => mret (http_Error w "Invalid file upload" StatusBadRequest)
  | Ok (file, header) =>
      up ← uploadToBlobStorage file (Filename header) config;
      match up with
      | Err err =>
          log_Printf "Error uploading file to blob storage: %v" (ArgErr err);;
          mret (http_Error w "Error uploading file" StatusInternalServerError)
      | Ok profilePicURL =>
          let user := mkUser 0 name email profilePicURL Time_zero in
          e ← sendToServiceBus user config;
          match e with
          | Some err =>
              log_Printf "Error sending user data to Service Bus: %v" (ArgErr err);;
              mret (http_Error w "Error sending user data" StatusInternalServerError)
          | None =>
              mret (Encode w (json_map [ ("message", "User created successfully");
                                         ("profile_pic_url", profilePicURL) ]))
          end
      end
  end.

(** The loop [for rows.Next() { ... rows.Scan(...) ... users = append(users, user) }]
    of [getUsers]: [Err] when a scan fails (the handler returns at once),
    otherwise the slice built when [Next] returns false. *)
Fixpoint scan_rows (turns : list RowStep) (users : slice User) : result (slice User) :=
  match turns with
  | [] => Ok users
  | Scanned id name email link createdAt :: rest =>
      let user := mkUser id name email link createdAt in
      scan_rows rest (append users user)
  | ScanFails err :: _ => Err err
  end.

(** [getUsers(w)]. *)
Definition getUsers (w : ResponseWriter) : M ResponseWriter :=
  q ← db_Query "SELECT * FROM users";
  match q with
  | Err err =>
      log_Printf "Error fetching users from database: %v" (ArgErr err);;
      mret (http_Error w "Error fetching users" StatusInternalServerError)
  | Ok rows =>
      w' ← match scan_rows (steps rows) None with
           | Err err =>
               log_Printf "Error scanning row: %v" (ArgErr err);;
               mret (http_Error w "Error scanning user data" StatusInternalServerError)
           | Ok users => mret (Encode w (json_Users users))
           end;
      Rows_Close;;
      mret w'
  end.

(** ** Routing

    [main] registers the two handlers on a [mux] router under the path
    "/users", one for each method, and wraps the router in the CORS
    middleware. *)

(** An incoming HTTP request: method, URL path, headers and the parsed
    form. *)
Record HttpRequest := mkHttp {
  Method : string;
  Path : string;
  Header : gmap string string;
  Payload : Request
}.

(** An [http.Handler].  The result is [None] when no handler of this
    program ran: the router or the middleware answered by itself. *)
Definition Handler : Type := ResponseWriter -> HttpRequest -> M (option ResponseWriter).

(** A route of the router: [r.HandleFunc(path, f).Methods(methods...)]. *)
Record Route := mkRoute {
  route_path : string;
  route_methods : list string;
  route_func : ResponseWriter -> HttpRequest -> M ResponseWriter
}.

(** The routes [main] registers, in order. *)
Definition routes (config : Config) : list Route :=
  [ mkRoute "/users" ["GET"] (fun w _ => getUsers w);
    mkRoute "/users" ["POST"] (fun w r => createUser w (Payload r) config) ].

(** The router picks the first route whose path and method both match. *)
Fixpoint Router_Match (rs : list Route) (r : HttpRequest) : option Route :=
  match rs with
  | [] => None
  | rt :: rest =>
      if decide (Path r = route_path rt ∧ Method r ∈ route_methods rt)
      then Some rt
      else Router_Match rest r
  end.

Definition Router_ServeHTTP (rs : list Route) : Handler :=
  fun w r =>
    match Router_Match rs r with
    | Some rt => w' ← route_func rt w r; mret (Some w')
    | None => mret None
    end.

(** [cors.Handler(h)]: a preflight request (method OPTIONS carrying an
    Access-Control-Request-Method header) is answered by the middleware;
    every other request is passed on to [h], whatever its origin. *)
Definition cors_Handler (h : Handler) : Handler :=
  fun w r =>
    if decide (Method r = "OPTIONS" ∧
               default "" (Header r !! "Access-Control-Request-Method") ≠ "")
    then mret None
    else h w r.

(** The handler [main] passes to [http.ListenAndServe]. *)
Definition server (config : Config) : Handler :=
  cors_Handler (Router_ServeHTTP (routes config)).

(** ** Startup *)

(** What the process finds on the machine it starts on: the outcome of
    opening a file by path (an error, or a file whose content decodes
    into a [Config] or fails to), of [sql.Open] by driver and data
    source, of [Ping] by data source, and the error with which
    [http.ListenAndServe] eventually returns. *)
Record Host := mkHost {
  fs_open : string -> result (result Config);
  sql_open : string -> string -> option error;
  db_ping : string -> option error;
  listen : string -> error
}.

(** What the process does that is visible from outside. *)
Inductive Event : Type :=
| FileOpen (path : string)
| FileClose (path : string)
| SqlOpen (driver source : string)
| SqlPing (source : string)
| SqlClose (source : string)
| Log (format : string) (arg : option error)
| Listen (addr : string) (config : Config)
| Exit (code : Z).

(** The state of the process: the events so far and the data source of
    the global handle [db], once it is set. *)
Record Proc := mkProc {
  trace : list Event;
  db_source : option string
}.

(** A step of the process: it reads the host, changes the state, and
    either returns a value or ends the process ([None], after
    [os.Exit]). *)
Definition P (A : Type) : Type := Host -> Proc -> option A * Proc.

#[global] Instance P_ret : MRet P := fun A (a : A) (h : Host) (p : Proc) => (Some a, p).
#[global] Instance P_bind : MBind P :=
  fun A B (f : A -> P B) (m : P A) (h : Host) (p : Proc) =>
    match m h p with
    | (Some a, p') => f a h p'
    | (None, p') => (None, p')
    end.

Definition emit (e : Event) : P unit :=
  fun h p => (Some tt, mkProc (trace p ++ [e])%list (db_source p)).

Definition host : P Host := fun h p => (Some h, p).

(** [os.Exit(code)]: the process ends at once; deferred calls do not
    run. *)
Definition os_Exit {A} (code : Z) : P A :=
  fun h p => (None, mkProc (trace p ++ [Exit code])%list (db_source p)).

(** [log.Fatalf(format, err)] and [log.Fatal(err)]: print, then
    [os.Exit(1)]. *)
Definition log_Fatalf {A} (format : string) (err : error) : P A :=
  emit (Log format (Some err));; os_Exit 1.

Definition log_Fatal {A} (err : error) : P A := log_Fatalf "%v" err.

Definition log_Println (msg : string) : P unit := emit (Log msg None).

(** [defer d] followed by [body], the rest of the function: [d] runs when
    [body] returns, and does not run if the process ends inside [body]. *)
Definition defer {A} (d : P unit) (body : P A) : P A :=
  a ← body; d;; mret a.

Definition os_Open (path : string) : P (result (string * result Config)) :=
  emit (FileOpen path);;
  h ← host;
  match fs_open h path with
  | Err e => mret (Err e)
  | Ok content => mret (Ok (path, content))
  end.

Definition File_Close (file : string * result Config) : P unit :=
  emit (FileClose file.1).

(** [json.NewDecoder(file).Decode(&config)]. *)
Definition Decode (file : string * result Config) : P (result Config) := mret file.2.

(** [db, err = sql.Open(driver, source)]: the global handle is set when
    the call succeeds. *)
Definition sql_Open (driver source : string) : P (option error) :=
  emit (SqlOpen driver source);;
  h ← host;
  match sql_open h driver source with
  | Some e => mret (Some e)
  | None => fun _ p => (Some None, mkProc (trace p) (Some source))
  end.

Definition the_source : P (option string) := fun h p => (Some (db_source p), p).

(** [db.Ping()] and [db.Close()] on the global handle. *)
Definition db_Ping : P (option error) :=
  s ← the_source;
  emit (SqlPing (default "" s));;
  h ← host;
  mret (db_ping h (default "" s)).

Definition db_Close : P unit :=
  s ← the_source;
  emit (SqlClose (default "" s)).

Definition http_ListenAndServe (addr : string) (config : Config) : P error :=
  emit (Listen addr config);;
  h ← host;
  mret (listen h addr).

(** [initDB(config)]. *)
Definition initDB (config : Config) : P unit :=
  e ← sql_Open "sqlserver" (Database_ConnectionString config);
  match e with
  | Some err => log_Fatalf "Error connecting to the database: %v\n" err
  | None =>
      e ← db_Ping;
      match e with
      | Some err => log_Fatalf "Cannot ping the database: %v\n" err
      | None => log_Println "Successfully connected to the Azure SQL Database!"
      end
  end.

(** [main()], up to the handler it serves, which is [server config]. *)
Definition main : P unit :=
  r ← os_Open "config.json";
  match r with
  | Err err => log_Fatalf "Error opening config file: %v" err
  | Ok configFile =>
      defer (File_Close configFile)
        (d ← Decode configFile;
         match d with
         | Err err => log_Fatalf "Error decoding config file: %v" err
         | Ok config =>
             initDB config;;
             defer db_Close
               (log_Println "Starting server on port 8080...";;
                err ← http_ListenAndServe ":8080" config;
                log_Fatal err)
         end)
  end.

(** The process before [main] runs. *)
Definition boot : Proc := mkProc [] None.

(** ** Vocabulary of the properties *)

(** The blob upload succeeds when the client can be built and the
    transfer goes through; the publish succeeds when client, sender and
    send all do. *)
Definition upload_ok (a : Answers) : Prop :=
  blobClientErr a = None ∧ uploadErr a = None.

Definition publish_ok (a : Answers) : Prop :=
  busClientErr a = None ∧ senderErr a = None ∧ sendErr a = None.

(** The calls made on the way from world [w] to world [w']. *)
Definition new_calls (w w' : World) : list Call :=
  drop (length (calls w)) (calls w').

Definition is_blob_call (c : Call) : bool :=
  match c with
  | BlobNewClient _ | BlobUploadStream _ _ _ _ => true
  | _ => false
  end.

Definition is_bus_call (c : Call) : bool :=
  match c with
  | BusNewClient _ | BusNewSender _ | BusSendMessage _ _
  | BusSenderClose _ | BusClientClose => true
  | _ => false
  end.

Definition is_send (c : Call) : bool :=
  match c with
  | BusSendMessage _ _ => true
  | _ => false
  end.

Definition is_db_call (c : Call) : bool :=
  match c with
  | DbQuery _ | DbRowsClose => true
  | _ => false
  end.

(** The same world with the services answering as [a] (the situation of
    a later request). *)
Definition with_answers (a : Answers) (w : World) : World :=
  mkWorld (blobs w) (queues w) (db w) a (calls w) (logs w).

(** The metadata every upload carries, and the object an upload of
    [file] leaves in the store. *)
Definition upload_metadata : gmap string (option string) :=
  {[ "ContentType" := Some "image/jpeg" ]}.

Definition uploaded (file : list byte) : Blob := mkBlob file upload_metadata.

(** The cursor turn on which [Scan] yields the user [u]. *)
Definition as_row (u : User) : RowStep :=
  Scanned (ID u) (Name u) (Email u) (Link u) (CreatedAt u).

(** The slice the loop of [getUsers] ends with after appending [us] to a
    nil slice: still nil if nothing was appended. *)
Definition collected (us : list User) : slice User :=
  match us with
  | [] => None
  | _ => Some us
  end.


(** The calls that release a resource. *)
Definition is_close (c : Call) : bool :=
  match c with
  | BusSenderClose _ | BusClientClose | DbRowsClose => true
  | _ => false
  end.

(** ** Sample inputs *)

Definition sample_config : Config :=
  mkConfig "sqlserver://users-db" "blob-connection" "bus-connection".

Definition all_ok : Answers := mkAnswers None None None None None.

Definition upload_down : Answers :=
  mkAnswers None (Some "transfer aborted") None None None.

Definition queue_down : Answers :=
  mkAnswers None None None None (Some "link detached").

Definition png_bytes : list byte := [x89; x50; x4e; x47].
Definition gif_bytes : list byte := [x47; x49; x46; x38; x39; x61].

Definition me_png : FileHeader := mkFileHeader "me.png".

Definition ann_request : Request :=
  mkRequest None
            {[ "name" := ["Ann"]; "email" := ["ann@example.org"] ]}
            {[ "photo" := [(png_bytes, me_png)] ]}.

(** A second request that reuses the file name [me.png] for other bytes. *)
Definition bob_request : Request :=
  mkRequest None
            {[ "name" := ["Bob"]; "email" := ["bob@example.org"] ]}
            {[ "photo" := [(gif_bytes, me_png)] ]}.

(** A request without a photo part. *)
Definition bare_request : Request :=
  mkRequest None {[ "name" := ["Ann"]; "email" := ["ann@example.org"] ]} ∅.

(** A store whose user table is empty. *)
Definition empty_table : DB := mkDB (fun _ => Ok (mkRows [] None)).

Definition ann : User :=
  mkUser 1 "Ann" "ann@example.org" "profile-pictures/me.png" (mkTime 63900000000 0).

(** A store that delivers one row and then loses the connection. *)
Definition broken_cursor : DB :=
  mkDB (fun _ => Ok (mkRows [as_row ann] (Some "connection reset"))).

Definition world_of (d : DB) (a : Answers) : World := mkWorld ∅ ∅ d a [] [].

(** A machine on which every step of the startup succeeds; the server
    later stops with "address in use". *)
Definition good_host : Host :=
  mkHost (fun _ => Ok (Ok sample_config)) (fun _ _ => None) (fun _ => None)
         (fun _ => "address in use").

(** A machine whose database does not answer the ping. *)
Definition no_database : Host :=
  mkHost (fun _ => Ok (Ok sample_config)) (fun _ _ => None) (fun _ => Some "timeout")
         (fun _ => "address in use").

(** ** Running the program *)

Ltac run :=
  unfold createUser, getUsers, sendToServiceBus, uploadToBlobStorage,
    azblob_NewClientFromConnectionString, UploadStream,
    azservicebus_NewClientFromConnectionString, NewSender, SendMessage,
    Sender_Close, BusClient_Close, json_Marshal, db_Query, Rows_Close, the_db,
    put_blob, enqueue, log_Printf, call, ask, toPtr,
    mbind, M_bind, mret, M_ret in *;
  cbn [fst snd blobs queues db answers calls logs
       blobClientErr uploadErr busClientErr senderErr sendErr
       queueName blobConn busConn] in *.

Ltac tidy := rewrite <- ?(assoc_L (++)); cbn [app].

Lemma new_calls_app (w w' : World) (cs : list Call) :
  calls w' = (calls w ++ cs)%list → new_calls w w' = cs.
Proof. unfold new_calls. intros ->. by rewrite drop_app_length. Qed.

Lemma new_calls_same (w w' : World) : calls w' = calls w → new_calls w w' = [].
Proof. unfold new_calls. intros ->. by rewrite drop_all. Qed.

(** What [uploadToBlobStorage] does, by the answers of the blob store. *)
Lemma uploadToBlobStorage_run file filename config w :
  uploadToBlobStorage file filename config w =
  let conn := Azure_BlobConnectionString config in
  let up := BlobUploadStream "profile-pictures" filename file upload_metadata in
  match blobClientErr (answers w) with
  | Some e =>
      (Err (Errorf "failed to create blob client" e),
       mkWorld (blobs w) (queues w) (db w) (answers w)
               (calls w ++ [BlobNewClient conn])%list (logs w))
  | None =>
      match uploadErr (answers w) with
      | Some e =>
          (Err (Errorf "failed to upload to blob" e),
           mkWorld (blobs w) (queues w) (db w) (answers w)
                   (calls w ++ [BlobNewClient conn; up])%list (logs w))
      | None =>
          (Ok ("profile-pictures/" +:+ filename),
           mkWorld (<[("profile-pictures", filename) := uploaded file]> (blobs w))
                   (queues w) (db w) (answers w)
                   (calls w ++ [BlobNewClient conn; up])%list (logs w))
      end
  end.
Proof.
  run. destruct (blobClientErr (answers w)); [done|].
  run. destruct (uploadErr (answers w)); tidy; done.
Qed.

(** What [sendToServiceBus] does, by the answers of the service bus. *)
Lemma sendToServiceBus_run user config w :
  sendToServiceBus user config w =
  let conn := Azure_ServiceBusConnectionString config in
  let m := mkMessage (json_User user) ∅ in
  match busClientErr (answers w) with
  | Some e =>
      (Some (Errorf "failed to create service bus client" e),
       mkWorld (blobs w) (queues w) (db w) (answers w)
               (calls w ++ [BusNewClient conn])%list (logs w))
  | None =>
      match senderErr (answers w) with
      | Some e =>
          (Some (Errorf "failed to create sender" e),
           mkWorld (blobs w) (queues w) (db w) (answers w)
                   (calls w ++ [BusNewClient conn; BusNewSender "user-queue";
                                BusClientClose])%list (logs w))
      | None =>
          let cs := [BusNewClient conn; BusNewSender "user-queue";
                     BusSendMessage "user-queue" m;
                     BusSenderClose "user-queue"; BusClientClose] in
          match sendErr (answers w) with
          | Some e =>
              (Some (Errorf "failed to send message to service bus" e),
               mkWorld (blobs w) (queues w) (db w) (answers w)
                       (calls w ++ cs)%list (logs w))
          | None =>
              (None,
               mkWorld (blobs w)
                       (<["user-queue" :=
                            (default [] (queues w !! "user-queue") ++ [m])%list]> (queues w))
                       (db w) (answers w) (calls w ++ cs)%list
                       (logs w ++ [("User data sent to Service Bus: %s",
                                    ArgDoc (json_User user))])%list)
          end
      end
  end.
Proof.
  run. destruct (busClientErr (answers w)); [done|].
  run. destruct (senderErr (answers w)); run; tidy; [done|].
  destruct (sendErr (answers w)); run; tidy; done.
Qed.

(** The three ways [createUser] can go once the photo part is there. *)
Lemma createUser_run wr r config w file header :
  FormFile r "photo" = Ok (file, header) →
  createUser wr r config w =
  let up := uploadToBlobStorage file (Filename header) config w in
  match up.1 with
  | Err err =>
      (http_Error wr "Error uploading file" StatusInternalServerError,
       (log_Printf "Error uploading file to blob storage: %v" (ArgErr err) up.2).2)
  | Ok url =>
      let user := mkUser 0 (FormValue r "name") (FormValue r "email") url Time_zero in
      let pub := sendToServiceBus user config up.2 in
      match pub.1 with
      | Some err =>
          (http_Error wr "Error sending user data" StatusInternalServerError,
           (log_Printf "Error sending user data to Service Bus: %v" (ArgErr err) pub.2).2)
      | None =>
          (Encode wr (json_map [ ("message", "User created successfully");
                                 ("profile_pic_url", url) ]),
           pub.2)
      end
  end.
Proof.
  intros Hf. unfold createUser. rewrite Hf.
  unfold mbind, M_bind at 1.
  destruct (uploadToBlobStorage file (Filename header) config w) as [[url|err] w1];
    cbn [fst snd]; [|done].
  unfold M_bind at 1.
  destruct (sendToServiceBus _ config w1) as [[err|] w2]; done.
Qed.

(** ** The create path *)

(** C1: a create request with a valid photo part, for which the blob
    upload and the queue publish both succeed, is answered with status
    200 and one JSON object whose "message" field is the string
    "User created successfully" and whose "profile_pic_url" field is a
    non-empty string. *)
Theorem createUser_success_response r config w file header :
  FormFile r "photo" = Ok (file, header) →
  upload_ok (answers w) →
  publish_ok (answers w) →
  let resp := (createUser newWriter r config w).1 in
  status resp = 200 ∧
  ∃ doc url,
    body resp = [Doc doc] ∧
    field "message" doc = Some (JString "User created successfully") ∧
    field "profile_pic_url" doc = Some (JString url) ∧
    url ≠ "".
Proof.
  intros Hf [Hc Hu] (Hb & Hs & Hm).
  rewrite (createUser_run _ _ _ _ _ _ Hf), uploadToBlobStorage_run, Hc, Hu.
  cbn [fst snd]. rewrite sendToServiceBus_run. cbn [answers]. rewrite Hb, Hs, Hm.
  cbn [fst snd]. split; [done|].
  eexists _, ("profile-pictures/" +:+ Filename header).
  repeat split; done.
Qed.

Lemma createUser_success_response_witness :
  FormFile ann_request "photo" = Ok (png_bytes, me_png) ∧
  status (createUser newWriter ann_request sample_config (world_of empty_table all_ok)).1 = 200.
Proof.
  split; [reflexivity|].
  apply (createUser_success_response ann_request sample_config
           (world_of empty_table all_ok) png_bytes me_png).
  - reflexivity.
  - split; reflexivity.
  - repeat split.
Defined.

(** C4: when the blob upload succeeds and the queue publish then fails,
    the request is answered with status 500 and the uploaded object stays
    in the blob store: the store is the old one with the new object
    written, nothing is removed from it, and the only calls made to it
    are the client construction and the upload. *)
Theorem createUser_publish_failure_keeps_blob r config w file header :
  FormFile r "photo" = Ok (file, header) →
  upload_ok (answers w) →
  ¬ publish_ok (answers w) →
  let out := createUser newWriter r config w in
  let key := ("profile-pictures", Filename header) in
  status out.1 = 500 ∧
  blobs out.2 !! key = Some (uploaded file) ∧
  blobs out.2 = <[key := uploaded file]> (blobs w) ∧
  filter is_blob_call (new_calls w out.2) =
    [BlobNewClient (Azure_BlobConnectionString config);
     BlobUploadStream "profile-pictures" (Filename header) file upload_metadata].
Proof.
  intros Hf [Hc Hu] Hp.
  rewrite (createUser_run _ _ _ _ _ _ Hf), uploadToBlobStorage_run, Hc, Hu.
  cbn [fst snd]. rewrite sendToServiceBus_run. cbn [answers].
  unfold publish_ok in Hp.
  destruct (busClientErr (answers w)) as [e1|];
    [|destruct (senderErr (answers w)) as [e2|];
      [|destruct (sendErr (answers w)) as [e3|]; [|by destruct Hp]]];
    cbn [fst snd log_Printf blobs calls]; tidy;
    (split; [done|]); (split; [by rewrite lookup_insert_eq|]); (split; [done|]);
    by erewrite new_calls_app by reflexivity.
Qed.

Lemma createUser_publish_failure_keeps_blob_witness :
  let out := createUser newWriter ann_request sample_config (world_of empty_table queue_down) in
  status out.1 = 500 ∧
  blobs out.2 !! ("profile-pictures", "me.png") = Some (uploaded png_bytes).
Proof.
  pose proof (createUser_publish_failure_keeps_blob ann_request sample_config
                (world_of empty_table queue_down) png_bytes me_png) as H.
  destruct H as (Hs & Hb & _).
  - reflexivity.
  - split; reflexivity.
  - intros (_ & _ & Hsend). discriminate Hsend.
  - split; [exact Hs|exact Hb].
Defined.

(** C5: a create request whose photo part is absent or malformed is
    answered with status 400, and no call at all is made to the blob
    store or to the queue: the world is left exactly as it was. *)
Theorem createUser_bad_photo_no_calls r config w e :
  FormFile r "photo" = Err e →
  let out := createUser newWriter r config w in
  status out.1 = 400 ∧
  new_calls w out.2 = [] ∧
  out.2 = w.
Proof.
  intros Hf. unfold createUser. rewrite Hf. cbn.
  split; [done|]. split; [|done]. by apply new_calls_same.
Qed.

Lemma createUser_bad_photo_no_calls_witness :
  FormFile bare_request "photo" = Err ErrMissingFile ∧
  status (createUser newWriter bare_request sample_config (world_of empty_table all_ok)).1 = 400.
Proof.
  split; [reflexivity|].
  apply (createUser_bad_photo_no_calls bare_request sample_config
           (world_of empty_table all_ok) ErrMissingFile).
  reflexivity.
Defined.

(** C6: when the blob upload fails (the client cannot be built or the
    transfer fails), the request is answered with status 500 and no call
    is made to the service bus; the queues are as before. *)
Theorem createUser_upload_failure_no_publish r config w file header :
  FormFile r "photo" = Ok (file, header) →
  ¬ upload_ok (answers w) →
  let out := createUser newWriter r config w in
  status out.1 = 500 ∧
  filter is_bus_call (new_calls w out.2) = [] ∧
  queues out.2 = queues w.
Proof.
  intros Hf Hu.
  rewrite (createUser_run _ _ _ _ _ _ Hf), uploadToBlobStorage_run.
  unfold upload_ok in Hu.
  destruct (blobClientErr (answers w)) as [e1|];
    [|destruct (uploadErr (answers w)) as [e2|]; [|by destruct Hu]];
    cbn [fst snd log_Printf queues calls];
    (split; [done|]); (split; [|done]);
    by erewrite new_calls_app by reflexivity.
Qed.

Lemma createUser_upload_failure_no_publish_witness :
  let out := createUser newWriter ann_request sample_config (world_of empty_table upload_down) in
  status out.1 = 500 ∧ filter is_bus_call (new_calls (world_of empty_table upload_down) out.2) = [].
Proof.
  pose proof (createUser_upload_failure_no_publish ann_request sample_config
                (world_of empty_table upload_down) png_bytes me_png) as H.
  destruct H as (Hs & Hc & _).
  - reflexivity.
  - intros [_ Hup]. discriminate Hup.
  - split; [exact Hs|exact Hc].
Defined.

(** C7: whatever the stream, the file name and the configuration, the
    upload calls issued by [uploadToBlobStorage] are one upload to the
    container "profile-pictures" under the given file name, carrying the
    given bytes and the metadata ContentType = "image/jpeg" (issued as
    soon as the client can be built); when the function succeeds, that
    object is what the store holds under that container and name. *)
Theorem uploadToBlobStorage_fixed_container_and_type file filename config w :
  let out := uploadToBlobStorage file filename config w in
  let up := BlobUploadStream "profile-pictures" filename file
              {[ "ContentType" := Some "image/jpeg" ]} in
  new_calls w out.2 =
    BlobNewClient (Azure_BlobConnectionString config) ::
    match blobClientErr (answers w) with Some _ => [] | None => [up] end ∧
  (∀ url, out.1 = Ok url →
     blobs out.2 !! ("profile-pictures", filename) =
       Some (mkBlob file {[ "ContentType" := Some "image/jpeg" ]})).
Proof.
  rewrite uploadToBlobStorage_run.
  destruct (blobClientErr (answers w)) as [e1|];
    [|destruct (uploadErr (answers w)) as [e2|]];
    cbn [fst snd calls blobs]; (split; [by erewrite new_calls_app by reflexivity|]);
    intros url Hurl; try discriminate.
  by rewrite lookup_insert_eq.
Qed.

(** When [createUser] answers 200: exactly when the photo part is there
    and upload and publish both succeed. *)
Lemma createUser_ok_inv r config w :
  status (createUser newWriter r config w).1 = StatusOK →
  ∃ file header,
    FormFile r "photo" = Ok (file, header) ∧
    upload_ok (answers w) ∧ publish_ok (answers w).
Proof.
  destruct (FormFile r "photo") as [[file header]|e] eqn:Hf.
  - rewrite (createUser_run _ _ _ _ _ _ Hf), uploadToBlobStorage_run.
    intros H. exists file, header. split; [done|]. revert H.
    unfold upload_ok, publish_ok.
    destruct (blobClientErr (answers w)); [done|].
    destruct (uploadErr (answers w)); [done|].
    cbn [fst snd]. rewrite sendToServiceBus_run. cbn [answers].
    destruct (busClientErr (answers w)); [done|].
    destruct (senderErr (answers w)); [done|].
    by destruct (sendErr (answers w)).
  - unfold createUser. rewrite Hf. done.
Qed.

(** C8: on every successful create (status 200) exactly one message is
    sent, to the queue "user-queue"; it has no application properties and
    its body is the JSON serialization of the user record built from the
    request (form fields and photo reference), whose identifier is 0 and
    whose creation time is the zero time; the message is appended to
    that queue. *)
Theorem createUser_publishes_one_user_message r config w :
  let out := createUser newWriter r config w in
  status out.1 = StatusOK →
  ∃ file header user payload,
    FormFile r "photo" = Ok (file, header) ∧
    user = mkUser 0 (FormValue r "name") (FormValue r "email")
                  ("profile-pictures/" +:+ Filename header) Time_zero ∧
    ID user = 0 ∧ CreatedAt user = Time_zero ∧
    json_Marshal user = Ok payload ∧
    filter is_send (new_calls w out.2) =
      [BusSendMessage "user-queue" (mkMessage payload ∅)] ∧
    queues out.2 !! "user-queue" =
      Some (default [] (queues w !! "user-queue") ++ [mkMessage payload ∅])%list.
Proof.
  intros out Hok. subst out.
  destruct (createUser_ok_inv _ _ _ Hok) as (file & header & Hf & [Hc Hu] & Hb & Hs & Hm).
  clear Hok.
  rewrite (createUser_run _ _ _ _ _ _ Hf), uploadToBlobStorage_run, Hc, Hu.
  cbn [fst snd]. rewrite sendToServiceBus_run. cbn [answers]. rewrite Hb, Hs, Hm.
  cbn [fst snd calls queues]. tidy.
  eexists file, header, _, _.
  repeat split; [done|..].
  - by erewrite new_calls_app by reflexivity.
  - by rewrite lookup_insert_eq.
Qed.

Lemma createUser_publishes_one_user_message_witness :
  ∃ payload,
    queues (createUser newWriter ann_request sample_config (world_of empty_table all_ok)).2
      !! "user-queue" = Some [mkMessage payload ∅].
Proof.
  destruct (createUser_publishes_one_user_message ann_request sample_config
              (world_of empty_table all_ok))
    as (file & header & user & payload & _ & _ & _ & _ & _ & _ & Hq).
  - reflexivity.
  - exists payload. exact Hq.
Defined.

(** C9: whatever the request and whatever the outcome, [createUser]
    makes no call to the relational store and leaves the database handle
    and what is behind it as they were. *)
Theorem createUser_leaves_database_alone r config w :
  let out := createUser newWriter r config w in
  db out.2 = db w ∧
  filter is_db_call (new_calls w out.2) = [].
Proof.
  destruct (FormFile r "photo") as [[file header]|e] eqn:Hf.
  - rewrite (createUser_run _ _ _ _ _ _ Hf), uploadToBlobStorage_run.
    destruct (blobClientErr (answers w)) as [e1|];
      [|destruct (uploadErr (answers w)) as [e2|]];
      cbn [fst snd log_Printf db calls];
      try (split; [done|by erewrite new_calls_app by reflexivity]).
    rewrite sendToServiceBus_run. cbn [answers].
    destruct (busClientErr (answers w)) as [e3|];
      [|destruct (senderErr (answers w)) as [e4|];
        [|destruct (sendErr (answers w)) as [e5|]]];
      cbn [fst snd log_Printf db calls]; tidy;
      (split; [done|by erewrite new_calls_app by reflexivity]).
  - unfold createUser. rewrite Hf. cbn. split; [done|].
    by rewrite new_calls_same.
Qed.

(** C10: the photo reference returned by a successful create is the
    container name joined by "/" with the file name the client sent, and
    nothing else enters it.  So two successful creates whose photo parts
    carry the same file name, whatever else differs, return the same
    reference and write the same object of the blob store: after the
    second, the object holds the second file and the first is gone. *)
Theorem createUser_reference_from_filename_only r1 r2 config w a2 file1 header1 file2 header2 :
  FormFile r1 "photo" = Ok (file1, header1) →
  FormFile r2 "photo" = Ok (file2, header2) →
  Filename header1 = Filename header2 →
  let out1 := createUser newWriter r1 config w in
  let out2 := createUser newWriter r2 config (with_answers a2 out1.2) in
  status out1.1 = StatusOK →
  status out2.1 = StatusOK →
  let key := ("profile-pictures", Filename header1) in
  let doc := JObject [ ("message", JString "User created successfully");
                       ("profile_pic_url",
                        JString ("profile-pictures" +:+ "/" +:+ Filename header1)) ] in
  body out1.1 = [Doc doc] ∧
  body out2.1 = [Doc doc] ∧
  blobs out1.2 !! key = Some (uploaded file1) ∧
  blobs out2.2 !! key = Some (uploaded file2) ∧
  blobs out2.2 = <[key := uploaded file2]> (blobs w).
Proof.
  intros Hf1 Hf2 Hname out1 out2 Hok1 Hok2 key doc. subst out1 out2 key doc.
  destruct (createUser_ok_inv _ _ _ Hok1)
    as (f & h & Hf & [Hc Hu] & Hb & Hs & Hm).
  destruct (createUser_ok_inv _ _ _ Hok2)
    as (f' & h' & Hf' & [Hc' Hu'] & Hb' & Hs' & Hm').
  clear Hok1 Hok2 Hf Hf'. revert Hc' Hu' Hb' Hs' Hm'.
  rewrite (createUser_run _ _ _ _ _ _ Hf1), uploadToBlobStorage_run, Hc, Hu.
  cbn [fst snd]. rewrite sendToServiceBus_run. cbn [answers]. rewrite Hb, Hs, Hm.
  cbn [fst snd]. intros Hc' Hu' Hb' Hs' Hm'.
  rewrite (createUser_run _ _ _ _ _ _ Hf2), uploadToBlobStorage_run.
  unfold with_answers in *. cbn [answers blobs] in *. rewrite Hc', Hu'.
  cbn [fst snd]. rewrite sendToServiceBus_run. cbn [answers]. rewrite Hb', Hs', Hm'.
  cbn [fst snd blobs]. rewrite <- Hname.
  repeat split.
  - by rewrite lookup_insert_eq.
  - by rewrite lookup_insert_eq.
  - by rewrite insert_insert_eq.
Qed.

Lemma createUser_reference_from_filename_only_witness :
  let out1 := createUser newWriter ann_request sample_config (world_of empty_table all_ok) in
  let out2 := createUser newWriter bob_request sample_config (with_answers all_ok out1.2) in
  body out1.1 = body out2.1 ∧
  blobs out2.2 !! ("profile-pictures", "me.png") = Some (uploaded gif_bytes).
Proof.
  pose proof (createUser_reference_from_filename_only ann_request bob_request sample_config
                (world_of empty_table all_ok) all_ok png_bytes me_png gif_bytes me_png) as H.
  destruct H as (H1 & H2 & _ & H4 & _); try reflexivity.
  split; [exact (eq_trans H1 (eq_sym H2))|exact H4].
Defined.

(** ** The list path *)

Lemma scan_rows_scanned (us : list User) (acc : slice User) :
  scan_rows (as_row <$> us) acc =
  Ok (match us with [] => acc | _ => Some (elems acc ++ us)%list end).
Proof.
  revert acc. induction us as [|[i n e l c] us IH]; intros acc; [done|].
  cbn [fmap list_fmap as_row scan_rows ID Name Email Link CreatedAt].
  rewrite IH. unfold append. cbn [elems from_option id].
  destruct us; [done|]. by rewrite <- (assoc_L (++)).
Qed.

Lemma scan_rows_from_nil (us : list User) :
  scan_rows (as_row <$> us) None = Ok (collected us).
Proof. rewrite scan_rows_scanned. by destruct us. Qed.

Lemma scan_rows_fails (turns : list RowStep) (acc : slice User) (e : error) :
  ScanFails e ∈ turns → ∃ e', scan_rows turns acc = Err e'.
Proof.
  revert acc. induction turns as [|t turns IH]; intros acc Hin.
  - by apply elem_of_nil in Hin.
  - destruct t as [i n m l c|e0]; [|by eexists].
    apply elem_of_cons in Hin as [Heq|Hin]; [done|]. by apply IH.
Qed.

(** What [getUsers] does, by the answer of the store and the outcome of
    the scan loop. *)
Lemma getUsers_run wr w :
  getUsers wr w =
  let q := "SELECT * FROM users" in
  match Query (db w) q with
  | Err err =>
      (http_Error wr "Error fetching users" StatusInternalServerError,
       mkWorld (blobs w) (queues w) (db w) (answers w) (calls w ++ [DbQuery q])%list
               (logs w ++ [("Error fetching users from database: %v", ArgErr err)])%list)
  | Ok rows =>
      match scan_rows (steps rows) None with
      | Err err =>
          (http_Error wr "Error scanning user data" StatusInternalServerError,
           mkWorld (blobs w) (queues w) (db w) (answers w)
                   (calls w ++ [DbQuery q; DbRowsClose])%list
                   (logs w ++ [("Error scanning row: %v", ArgErr err)])%list)
      | Ok users =>
          (Encode wr (json_Users users),
           mkWorld (blobs w) (queues w) (db w) (answers w)
                   (calls w ++ [DbQuery q; DbRowsClose])%list (logs w))
      end
  end.
Proof.
  run. destruct (Query (db w) _) as [rows|err]; [|done].
  destruct (scan_rows (steps rows) None); run; tidy; done.
Qed.

(** A failing query is answered with status 500 and the error line
    only. *)
Lemma getUsers_query_failure w err :
  Query (db w) "SELECT * FROM users" = Err err →
  let resp := (getUsers newWriter w).1 in
  status resp = 500 ∧ body resp = [Line "Error fetching users"].
Proof. intros Hq. rewrite getUsers_run. cbn zeta. by rewrite Hq. Qed.

(** A failing scan on any row is answered with status 500 and the error
    line only: none of the users scanned before it is sent. *)
Lemma getUsers_scan_failure w rows err :
  Query (db w) "SELECT * FROM users" = Ok rows →
  ScanFails err ∈ steps rows →
  let resp := (getUsers newWriter w).1 in
  status resp = 500 ∧ body resp = [Line "Error scanning user data"].
Proof.
  intros Hq Hin. rewrite getUsers_run. cbn zeta. rewrite Hq.
  destruct (scan_rows_fails _ None _ Hin) as [e' ->]. done.
Qed.

(** When the query succeeds and every row scans, the answer is status
    200 with the users built from the rows, in the order of the cursor. *)
Lemma getUsers_all_rows w rows us :
  Query (db w) "SELECT * FROM users" = Ok rows →
  steps rows = as_row <$> us →
  let resp := (getUsers newWriter w).1 in
  status resp = 200 ∧ body resp = [Doc (json_Users (collected us))].
Proof.
  intros Hq Hs. rewrite getUsers_run. cbn zeta.
  by rewrite Hq, Hs, scan_rows_from_nil.
Qed.

(** C2: on an empty user table (the query succeeds and the cursor has no
    row) [getUsers] answers with status 200, but the body is the JSON
    value [null], the encoding of the nil slice [users] that no [append]
    has touched, and not the empty array. *)
Theorem getUsers_empty_table_encodes_null w :
  Query (db w) "SELECT * FROM users" = Ok (mkRows [] None) →
  let resp := (getUsers newWriter w).1 in
  status resp = 200 ∧
  body resp = [Doc JNull] ∧
  body resp ≠ [Doc (JArray [])].
Proof.
  intros Hq. rewrite getUsers_run. cbn zeta. rewrite Hq. cbn.
  repeat split. discriminate.
Qed.

Lemma getUsers_empty_table_encodes_null_witness :
  body (getUsers newWriter (world_of empty_table all_ok)).1 = [Doc JNull].
Proof.
  apply (getUsers_empty_table_encodes_null (world_of empty_table all_ok)).
  reflexivity.
Defined.

(** C3: when fetching the next row fails after some rows were read
    ([rows.Next()] returns false and [rows.Err()] is set), [getUsers]
    does not fail: it answers with status 200 and the users scanned so
    far, as if the result set had ended. *)
Theorem getUsers_iteration_error_ignored w rows e us :
  Query (db w) "SELECT * FROM users" = Ok rows →
  iterErr rows = Some e →
  steps rows = as_row <$> us →
  let resp := (getUsers newWriter w).1 in
  status resp = 200 ∧ body resp = [Doc (json_Users (collected us))].
Proof. intros Hq _ Hs. by apply getUsers_all_rows with rows. Qed.

Lemma getUsers_iteration_error_ignored_witness :
  let resp := (getUsers newWriter (world_of broken_cursor all_ok)).1 in
  status resp = 200 ∧ body resp = [Doc (JArray [json_User ann])].
Proof.
  apply (getUsers_iteration_error_ignored (world_of broken_cursor all_ok)
           (mkRows [as_row ann] (Some "connection reset")) "connection reset" [ann]);
    reflexivity.
Defined.

(** ** Further properties of the create path *)

(** The three outcomes of [createUser] on a request with a photo part,
    with what each leaves in the stores and in the log. *)
Lemma createUser_outcome wr r config w file header :
  FormFile r "photo" = Ok (file, header) →
  let out := createUser wr r config w in
  let key := ("profile-pictures", Filename header) in
  let url := "profile-pictures/" +:+ Filename header in
  let m := mkMessage (json_User (mkUser 0 (FormValue r "name") (FormValue r "email")
                                        url Time_zero)) ∅ in
  (∃ cause, ¬ upload_ok (answers w) ∧
     out.1 = http_Error wr "Error uploading file" StatusInternalServerError ∧
     blobs out.2 = blobs w ∧ queues out.2 = queues w ∧
     logs out.2 =
       (logs w ++ [("Error uploading file to blob storage: %v", ArgErr cause)])%list) ∨
  (∃ cause, upload_ok (answers w) ∧ ¬ publish_ok (answers w) ∧
     out.1 = http_Error wr "Error sending user data" StatusInternalServerError ∧
     blobs out.2 = <[key := uploaded file]> (blobs w) ∧ queues out.2 = queues w ∧
     logs out.2 =
       (logs w ++ [("Error sending user data to Service Bus: %v", ArgErr cause)])%list) ∨
  (upload_ok (answers w) ∧ publish_ok (answers w) ∧
     out.1 = Encode wr (json_map [ ("message", "User created successfully");
                                   ("profile_pic_url", url) ]) ∧
     blobs out.2 = <[key := uploaded file]> (blobs w) ∧
     queues out.2 =
       <["user-queue" := (default [] (queues w !! "user-queue") ++ [m])%list]> (queues w) ∧
     logs out.2 =
       (logs w ++ [("User data sent to Service Bus: %s", ArgDoc (Body m))])%list).
Proof.
  intros Hf.
  rewrite (createUser_run _ _ _ _ _ _ Hf), uploadToBlobStorage_run.
  unfold upload_ok, publish_ok.
  destruct (blobClientErr (answers w)) as [e1|];
    [left; eexists; repeat split; by intros [? ?]|].
  destruct (uploadErr (answers w)) as [e2|];
    [left; eexists; repeat split; by intros [? ?]|].
  right. cbn [fst snd]. rewrite sendToServiceBus_run. cbn [answers].
  destruct (busClientErr (answers w)) as [e3|];
    [left; eexists; repeat split; by intros (? & ? & ?)|].
  destruct (senderErr (answers w)) as [e4|];
    [left; eexists; repeat split; by intros (? & ? & ?)|].
  destruct (sendErr (answers w)) as [e5|];
    [left; eexists; repeat split; by intros (? & ? & ?)|].
  right. repeat split.
Qed.

Lemma createUser_no_photo wr r config w e :
  FormFile r "photo" = Err e →
  createUser wr r config w = (http_Error wr "Invalid file upload" StatusBadRequest, w).
Proof. intros Hf. unfold createUser. by rewrite Hf. Qed.

(** X1: the status of a create is 400 exactly when [FormFile] fails for
    the photo part, 200 exactly when the part is there and upload and
    publish both succeed, and 500 exactly when the part is there and one
    of the two fails; there is no other status. *)
Theorem createUser_status_cases r config w :
  let st := status (createUser newWriter r config w).1 in
  (st = 400 ↔ ∃ e, FormFile r "photo" = Err e) ∧
  (st = 500 ↔ ∃ file header, FormFile r "photo" = Ok (file, header) ∧
                 ¬ (upload_ok (answers w) ∧ publish_ok (answers w))) ∧
  (st = 200 ↔ ∃ file header, FormFile r "photo" = Ok (file, header) ∧
                 upload_ok (answers w) ∧ publish_ok (answers w)).
Proof.
  destruct (FormFile r "photo") as [[file header]|e] eqn:Hf.
  - destruct (createUser_outcome newWriter r config w file header Hf)
      as [(c & Hu & -> & _)|[(c & Hu & Hp & -> & _)|(Hu & Hp & -> & _)]];
      cbn; (split; [split; [done|by intros [? ?]]|]); split; split;
      try done; try (intros (? & ? & _ & H); tauto);
      try (intros _; exists file, header; tauto).
  - rewrite (createUser_no_photo _ _ _ _ _ Hf). cbn.
    split; [split; [by eexists|done]|].
    split; (split; [done|by intros (? & ? & ? & _)]).
Qed.

(** X2: the response of a create is always a single chunk: one of three
    fixed lines of text with its status, or, with status 200, the
    success document.  No text of an error reported by a service appears
    in it. *)
Theorem createUser_response_shapes r config w :
  let resp := (createUser newWriter r config w).1 in
  (status resp = 400 ∧ body resp = [Line "Invalid file upload"]) ∨
  (status resp = 500 ∧ body resp = [Line "Error uploading file"]) ∨
  (status resp = 500 ∧ body resp = [Line "Error sending user data"]) ∨
  (status resp = 200 ∧
   ∃ url, body resp = [Doc (JObject [ ("message", JString "User created successfully");
                                      ("profile_pic_url", JString url) ])]).
Proof.
  destruct (FormFile r "photo") as [[file header]|e] eqn:Hf.
  - destruct (createUser_outcome newWriter r config w file header Hf)
      as [(c & Hu & -> & _)|[(c & Hu & Hp & -> & _)|(Hu & Hp & -> & _)]]; cbn.
    + right; left. done.
    + right; right; left. done.
    + right; right; right. split; [done|]. by eexists.
  - rewrite (createUser_no_photo _ _ _ _ _ Hf). by left.
Qed.

(** X4: a create that does not answer 200 leaves every queue as it was:
    no message is enqueued by a failed create. *)
Theorem createUser_failure_enqueues_nothing r config w :
  let out := createUser newWriter r config w in
  status out.1 ≠ 200 →
  queues out.2 = queues w.
Proof.
  destruct (FormFile r "photo") as [[file header]|e] eqn:Hf.
  - destruct (createUser_outcome newWriter r config w file header Hf)
      as [(c & Hu & _ & _ & Hq & _)|[(c & Hu & Hp & _ & _ & Hq & _)|(Hu & Hp & Hr & _)]];
      cbn zeta; try done.
    rewrite Hr. by intros [].
  - by rewrite (createUser_no_photo _ _ _ _ _ Hf).
Qed.

Lemma createUser_failure_enqueues_nothing_witness :
  queues (createUser newWriter ann_request sample_config (world_of empty_table queue_down)).2 = ∅.
Proof.
  apply (createUser_failure_enqueues_nothing ann_request sample_config
           (world_of empty_table queue_down)).
  vm_compute. discriminate.
Defined.

(** X5: a create changes the blob store at most under the key
    ("profile-pictures", file name of the photo part): any object whose
    lookup differs afterwards sits under that key and holds the bytes of
    the request's photo with the fixed metadata. *)
Theorem createUser_touches_one_blob r config w k :
  let out := createUser newWriter r config w in
  blobs out.2 !! k ≠ blobs w !! k →
  ∃ file header,
    FormFile r "photo" = Ok (file, header) ∧
    k = ("profile-pictures", Filename header) ∧
    blobs out.2 !! k = Some (uploaded file).
Proof.
  destruct (FormFile r "photo") as [[file header]|e] eqn:Hf.
  - destruct (createUser_outcome newWriter r config w file header Hf)
      as [(c & Hu & _ & Hb & _)|[(c & Hu & Hp & _ & Hb & _)|(Hu & Hp & _ & Hb & _)]];
      cbn zeta; rewrite Hb; try done;
      (intros Hne; exists file, header; split; [done|];
       destruct (decide (("profile-pictures", Filename header) = k)) as [<-|Hk];
       [by rewrite lookup_insert_eq|by rewrite lookup_insert_ne in Hne]).
  - by rewrite (createUser_no_photo _ _ _ _ _ Hf).
Qed.

Lemma createUser_touches_one_blob_witness :
  ∃ file header,
    FormFile ann_request "photo" = Ok (file, header) ∧
    ("profile-pictures", "me.png") = ("profile-pictures", Filename header) ∧
    blobs (createUser newWriter ann_request sample_config (world_of empty_table all_ok)).2
      !! ("profile-pictures", "me.png") = Some (uploaded file).
Proof.
  apply (createUser_touches_one_blob ann_request sample_config
           (world_of empty_table all_ok) ("profile-pictures", "me.png")).
  vm_compute. discriminate.
Defined.

Lemma createUser_keeps_answers wr r config w :
  answers (createUser wr r config w).2 = answers w.
Proof.
  destruct (FormFile r "photo") as [[file header]|e] eqn:Hf.
  - rewrite (createUser_run _ _ _ _ _ _ Hf), uploadToBlobStorage_run.
    destruct (blobClientErr (answers w)); [done|].
    destruct (uploadErr (answers w)); [done|].
    cbn [fst snd]. rewrite sendToServiceBus_run. cbn [answers].
    destruct (busClientErr (answers w)); [done|].
    destruct (senderErr (answers w)); [done|].
    by destruct (sendErr (answers w)).
  - by rewrite (createUser_no_photo _ _ _ _ _ Hf).
Qed.

(** X3: the form fields are not validated.  A request that has a photo
    part but neither a "name" nor an "email" field is accepted when the
    services answer: the status is 200 and the record published has the
    empty string for both. *)
Theorem createUser_accepts_missing_fields r config w file header :
  FormFile r "photo" = Ok (file, header) →
  Form r !! "name" = None →
  Form r !! "email" = None →
  upload_ok (answers w) →
  publish_ok (answers w) →
  let out := createUser newWriter r config w in
  status out.1 = 200 ∧
  last (default [] (queues out.2 !! "user-queue")) =
    Some (mkMessage (json_User (mkUser 0 "" "" ("profile-pictures/" +:+ Filename header)
                                       Time_zero)) ∅).
Proof.
  intros Hf Hn He Hu Hp.
  destruct (createUser_outcome newWriter r config w file header Hf)
    as [(c & Hu' & _)|[(c & _ & Hp' & _)|(_ & _ & Hr & _ & Hq & _)]]; try done.
  cbn zeta. rewrite Hr, Hq, lookup_insert_eq. unfold FormValue. rewrite Hn, He.
  split; [done|]. cbn [default from_option id]. by rewrite last_snoc.
Qed.

Lemma createUser_accepts_missing_fields_witness :
  status (createUser newWriter (mkRequest None ∅ {[ "photo" := [(png_bytes, me_png)] ]})
                     sample_config (world_of empty_table all_ok)).1 = 200.
Proof.
  apply (createUser_accepts_missing_fields
           (mkRequest None ∅ {[ "photo" := [(png_bytes, me_png)] ]})
           sample_config (world_of empty_table all_ok) png_bytes me_png);
    repeat split.
Defined.

(** X6: on a successful create the three places where the photo is named
    agree: the "profile_pic_url" of the response, the link of the record
    in the last message of "user-queue", and the key under which the
    blob store now holds the bytes of the photo part. *)
Theorem createUser_reference_resolves r config w :
  let out := createUser newWriter r config w in
  status out.1 = 200 →
  ∃ file header msg doc,
    FormFile r "photo" = Ok (file, header) ∧
    body out.1 = [Doc doc] ∧
    field "profile_pic_url" doc = Some (JString ("profile-pictures/" +:+ Filename header)) ∧
    last (default [] (queues out.2 !! "user-queue")) = Some msg ∧
    field "link" (Body msg) = Some (JString ("profile-pictures/" +:+ Filename header)) ∧
    blobs out.2 !! ("profile-pictures", Filename header) = Some (uploaded file).
Proof.
  intros out Hok. subst out.
  destruct (createUser_ok_inv _ _ _ Hok) as (file & header & Hf & Hu & Hp).
  destruct (createUser_outcome newWriter r config w file header Hf)
    as [(c & Hu' & _)|[(c & _ & Hp' & _)|(_ & _ & Hr & Hb & Hq & _)]]; try done.
  exists file, header. eexists _, _. split; [done|].
  rewrite Hr, Hb, Hq, !lookup_insert_eq. cbn [default from_option id].
  rewrite last_snoc. repeat split.
Qed.

Lemma createUser_reference_resolves_witness :
  ∃ file,
    blobs (createUser newWriter ann_request sample_config (world_of empty_table all_ok)).2
      !! ("profile-pictures", "me.png") = Some (uploaded file).
Proof.
  destruct (createUser_reference_resolves ann_request sample_config
              (world_of empty_table all_ok))
    as (file & header & msg & doc & Hf & _ & _ & _ & _ & Hb).
  - reflexivity.
  - exists file. injection Hf as _ <-. exact Hb.
Defined.

(** X7: a create is not deduplicated.  Serving the same request again
    after it succeeded succeeds again, leaves the blob store as the first
    run left it, and appends a second copy of the same message: the
    queue ends with the message twice. *)
Theorem createUser_repeat_enqueues_twice r config w :
  let out1 := createUser newWriter r config w in
  let out2 := createUser newWriter r config out1.2 in
  status out1.1 = 200 →
  status out2.1 = 200 ∧
  body out2.1 = body out1.1 ∧
  blobs out2.2 = blobs out1.2 ∧
  ∃ msg,
    queues out2.2 !! "user-queue" =
      Some (default [] (queues w !! "user-queue") ++ [msg; msg])%list.
Proof.
  intros out1 out2 Hok. subst out1 out2.
  destruct (createUser_ok_inv _ _ _ Hok) as (file & header & Hf & Hu & Hp).
  pose proof (createUser_keeps_answers newWriter r config w) as Ha.
  destruct (createUser_outcome newWriter r config w file header Hf)
    as [(c & Hu' & _)|[(c & _ & Hp' & _)|(_ & _ & Hr & Hb & Hq & _)]]; try done.
  destruct (createUser_outcome newWriter r config
              (createUser newWriter r config w).2 file header Hf)
    as [(c & Hu' & _)|[(c & _ & Hp' & _)|(_ & _ & Hr2 & Hb2 & Hq2 & _)]];
    rewrite ?Ha in *; try done.
  rewrite Hr2, Hb2, Hq2, Hr, Hb, Hq.
  split; [done|]. split; [done|]. split; [by rewrite insert_insert_eq|].
  eexists. rewrite !lookup_insert_eq. cbn [default from_option id].
  by rewrite <- (assoc_L (++)).
Qed.

Lemma createUser_repeat_enqueues_twice_witness :
  let out1 := createUser newWriter ann_request sample_config (world_of empty_table all_ok) in
  ∃ msg, queues (createUser newWriter ann_request sample_config out1.2).2 !! "user-queue"
         = Some [msg; msg].
Proof.
  destruct (createUser_repeat_enqueues_twice ann_request sample_config
              (world_of empty_table all_ok)) as (_ & _ & _ & msg & Hq).
  - reflexivity.
  - exists msg. exact Hq.
Defined.


(** ** Further properties of the publisher and the uploader *)

(** X9: [sendToServiceBus] returns nil exactly when client, sender and
    send all succeed.  When it returns nil the message, with the JSON
    serialization of the user as body and no properties, has been
    appended to "user-queue" and no other queue has changed; when it
    returns an error no queue has changed.  The blob store is never
    touched. *)
Theorem sendToServiceBus_enqueues_iff_nil user config w :
  let out := sendToServiceBus user config w in
  (out.1 = None ↔ publish_ok (answers w)) ∧
  (out.1 = None →
     queues out.2 !! "user-queue" =
       Some (default [] (queues w !! "user-queue") ++ [mkMessage (json_User user) ∅])%list ∧
     ∀ q, q ≠ "user-queue" → queues out.2 !! q = queues w !! q) ∧
  (out.1 ≠ None → queues out.2 = queues w) ∧
  blobs out.2 = blobs w.
Proof.
  rewrite sendToServiceBus_run. unfold publish_ok.
  destruct (busClientErr (answers w)) as [e1|];
    [|destruct (senderErr (answers w)) as [e2|];
      [|destruct (sendErr (answers w)) as [e3|]]];
    cbn [fst snd queues blobs];
    (split; [split; [done|by intros (? & ? & ?)]|]);
    (split; [|done]); try done.
  intros _. split; [by rewrite lookup_insert_eq|].
  intros q Hq. by rewrite lookup_insert_ne.
Qed.

(** X10: [sendToServiceBus] releases what it opened, on every path: the
    sender is closed exactly once if it was created, then the client
    exactly once if it was created, and nothing is closed that was not
    created.  The closing calls come after every other call. *)
Theorem sendToServiceBus_releases_what_it_opens user config w :
  let cs := new_calls w (sendToServiceBus user config w).2 in
  filter is_close cs =
    match busClientErr (answers w), senderErr (answers w) with
    | Some _, _ => []
    | None, Some _ => [BusClientClose]
    | None, None => [BusSenderClose "user-queue"; BusClientClose]
    end ∧
  cs = (filter (λ c, negb (is_close c)) cs ++ filter is_close cs)%list.
Proof.
  rewrite sendToServiceBus_run.
  destruct (busClientErr (answers w)) as [e1|];
    [|destruct (senderErr (answers w)) as [e2|];
      [|destruct (sendErr (answers w)) as [e3|]]];
    cbn [fst snd calls]; by erewrite new_calls_app by reflexivity.
Qed.

(** X11: the reference returned by [uploadToBlobStorage] determines the
    file name: two uploads that return the same reference, whatever their
    bytes, configuration and world, were given the same file name, and so
    wrote the same key of the store. *)
Theorem uploadToBlobStorage_reference_injective
    file1 name1 config1 w1 file2 name2 config2 w2 url :
  (uploadToBlobStorage file1 name1 config1 w1).1 = Ok url →
  (uploadToBlobStorage file2 name2 config2 w2).1 = Ok url →
  name1 = name2.
Proof.
  rewrite !uploadToBlobStorage_run.
  destruct (blobClientErr (answers w1)); [done|].
  destruct (uploadErr (answers w1)); [done|].
  destruct (blobClientErr (answers w2)); [done|].
  destruct (uploadErr (answers w2)); [done|].
  cbn. intros [= <-] [= H]. done.
Qed.

Lemma uploadToBlobStorage_reference_injective_witness :
  (uploadToBlobStorage png_bytes "me.png" sample_config (world_of empty_table all_ok)).1 =
    Ok "profile-pictures/me.png" ∧
  "me.png" = "me.png".
Proof.
  split; [reflexivity|].
  apply (uploadToBlobStorage_reference_injective
           png_bytes "me.png" sample_config (world_of empty_table all_ok)
           gif_bytes "me.png" sample_config (world_of empty_table queue_down)
           "profile-pictures/me.png"); reflexivity.
Defined.

(** ** Further properties of the list path *)

(** The scan loop stops at the first row whose scan fails, with that
    row's error, whatever was collected and whatever follows. *)
Lemma scan_rows_first_failure (us : list User) (e : error) (rest : list RowStep)
    (acc : slice User) :
  scan_rows ((as_row <$> us) ++ ScanFails e :: rest) acc = Err e.
Proof.
  revert acc. induction us as [|u us IH]; intros acc; [done|].
  cbn [fmap list_fmap app as_row scan_rows]. apply IH.
Qed.

(** A cursor splits into the rows that scan and, if there is one, the
    first row that does not. *)
Lemma steps_split (turns : list RowStep) :
  (∃ us, turns = as_row <$> us) ∨
  (∃ us e rest, turns = ((as_row <$> us) ++ ScanFails e :: rest)%list).
Proof.
  induction turns as [|t turns IH]; [left; by exists []|].
  destruct t as [i n m l c|e].
  - destruct IH as [(us & ->)|(us & e & rest & ->)].
    + left. by exists (mkUser i n m l c :: us).
    + right. by exists (mkUser i n m l c :: us), e, rest.
  - right. by exists [], e, turns.
Qed.

Lemma as_row_not_failure (us : list User) (e : error) : ScanFails e ∉ as_row <$> us.
Proof.
  intros Hin. apply list_elem_of_fmap in Hin as (u & Hu & _). discriminate Hu.
Qed.

(** X12: the status of a listing is 200 exactly when the query succeeds
    and no row of the cursor fails to scan, and 500 exactly when the
    query fails or some row fails to scan. *)
Theorem getUsers_status_cases w :
  let q := "SELECT * FROM users" in
  let st := status (getUsers newWriter w).1 in
  (st = 200 ↔ ∃ rows, Query (db w) q = Ok rows ∧ ∀ e, ScanFails e ∉ steps rows) ∧
  (st = 500 ↔ (∃ e, Query (db w) q = Err e) ∨
              (∃ rows e, Query (db w) q = Ok rows ∧ ScanFails e ∈ steps rows)).
Proof.
  rewrite getUsers_run. cbn zeta.
  destruct (Query (db w) "SELECT * FROM users") as [rows|err].
  - destruct (steps_split (steps rows)) as [(us & Hs)|(us & e & rest & Hs)]; rewrite Hs.
    + rewrite scan_rows_from_nil. cbn. split; split; try done.
      * intros _. exists rows. split; [done|]. intros e. rewrite Hs.
        apply as_row_not_failure.
      * intros [[e [=]]|(rows' & e & [= <-] & Hin)].
        rewrite Hs in Hin. by apply as_row_not_failure in Hin.
    + rewrite scan_rows_first_failure. cbn. split; split; try done.
      * intros (rows' & [= <-] & Hno). destruct (Hno e). rewrite Hs.
        apply elem_of_app. right. by left.
      * intros _. right. exists rows, e. split; [done|]. rewrite Hs.
        apply elem_of_app. right. by left.
  - cbn. split; split; try done.
    + by intros (rows & [=] & _).
    + intros _. left. by eexists.
Qed.

(** X13: when the query succeeds and the cursor delivers at least one
    row, all of which scan, the body is one JSON array with one object
    per row, in the order of the cursor, each object built from the
    columns of its row. *)
Theorem getUsers_rows_in_cursor_order w rows us :
  Query (db w) "SELECT * FROM users" = Ok rows →
  steps rows = as_row <$> us →
  us ≠ [] →
  let resp := (getUsers newWriter w).1 in
  status resp = 200 ∧
  ∃ items,
    body resp = [Doc (JArray items)] ∧
    length items = length us ∧
    ∀ i, items !! i = json_User <$> (us !! i).
Proof.
  intros Hq Hs Hne. rewrite getUsers_run. cbn zeta.
  rewrite Hq, Hs, scan_rows_from_nil. destruct us as [|u us]; [done|].
  cbn [collected fst]. split; [done|]. eexists. split; [done|].
  split; [by rewrite length_fmap|]. intros i. by rewrite list_lookup_fmap.
Qed.

Lemma getUsers_rows_in_cursor_order_witness :
  ∃ items,
    body (getUsers newWriter (world_of broken_cursor all_ok)).1 = [Doc (JArray items)] ∧
    length items = 1%nat.
Proof.
  destruct (getUsers_rows_in_cursor_order (world_of broken_cursor all_ok)
              (mkRows [as_row ann] (Some "connection reset")) [ann])
    as (_ & items & Hb & Hl & _); try done.
  exists items. split; [exact Hb|exact Hl].
Defined.

(** X14: when some row fails to scan, the listing stops at the first
    such row: the status is 500, the body is the one fixed line, so none
    of the users scanned before it is sent, the error logged is the one
    of that row, and the rows after it play no part. *)
Theorem getUsers_stops_at_first_bad_row w rows us e rest :
  Query (db w) "SELECT * FROM users" = Ok rows →
  steps rows = ((as_row <$> us) ++ ScanFails e :: rest)%list →
  let out := getUsers newWriter w in
  status out.1 = 500 ∧
  body out.1 = [Line "Error scanning user data"] ∧
  logs out.2 = (logs w ++ [("Error scanning row: %v", ArgErr e)])%list.
Proof.
  intros Hq Hs. rewrite getUsers_run. cbn zeta.
  by rewrite Hq, Hs, scan_rows_first_failure.
Qed.

Lemma getUsers_stops_at_first_bad_row_witness :
  body (getUsers newWriter
          (world_of (mkDB (λ _, Ok (mkRows [as_row ann; ScanFails "NULL in name"; as_row ann]
                                            None))) all_ok)).1 =
    [Line "Error scanning user data"].
Proof.
  apply (getUsers_stops_at_first_bad_row
           (world_of (mkDB (λ _, Ok (mkRows [as_row ann; ScanFails "NULL in name"; as_row ann]
                                             None))) all_ok)
           (mkRows [as_row ann; ScanFails "NULL in name"; as_row ann] None)
           [ann] "NULL in name" [as_row ann]); reflexivity.
Defined.

(** X15: a listing makes exactly one query, with the text
    [SELECT * FROM users], and closes the cursor exactly once when it
    obtained one, both after a full listing and after a failed scan;
    when the query fails there is no cursor and nothing is closed. *)
Theorem getUsers_closes_cursor w :
  let q := "SELECT * FROM users" in
  new_calls w (getUsers newWriter w).2 =
    DbQuery q :: match Query (db w) q with
                 | Ok _ => [DbRowsClose]
                 | Err _ => []
                 end.
Proof.
  rewrite getUsers_run. cbn zeta.
  destruct (Query (db w) "SELECT * FROM users") as [rows|err];
    [destruct (scan_rows (steps rows) None)|];
    cbn [snd calls]; by erewrite new_calls_app by reflexivity.
Qed.

Lemma getUsers_frame wr w :
  let out := getUsers wr w in
  blobs out.2 = blobs w ∧ queues out.2 = queues w ∧ db out.2 = db w ∧
  filter is_blob_call (new_calls w out.2) = [] ∧
  filter is_bus_call (new_calls w out.2) = [].
Proof.
  rewrite getUsers_run. cbn zeta.
  destruct (Query (db w) "SELECT * FROM users") as [rows|err];
    [destruct (scan_rows (steps rows) None)|];
    cbn [snd calls blobs queues db]; by erewrite new_calls_app by reflexivity.
Qed.

(** X16: a listing only reads: it leaves the blob store, the queues and
    the database handle as they were and makes no call to the blob store
    or to the service bus. *)
Theorem getUsers_only_reads w :
  let out := getUsers newWriter w in
  blobs out.2 = blobs w ∧ queues out.2 = queues w ∧ db out.2 = db w ∧
  filter is_blob_call (new_calls w out.2) = [] ∧
  filter is_bus_call (new_calls w out.2) = [].
Proof. apply getUsers_frame. Qed.

(** ** Properties of the routing *)

Lemma server_get config wr r w :
  Method r = "GET" → Path r = "/users" →
  server config wr r w = (Some (getUsers wr w).1, (getUsers wr w).2).
Proof.
  intros Hm Hp. unfold server, cors_Handler, Router_ServeHTTP, routes.
  rewrite decide_False by (rewrite Hm; by intros [? _]).
  cbn [Router_Match route_path route_methods].
  rewrite decide_True by (rewrite Hm, Hp; split; [done|by left]).
  cbn [route_func]. unfold mbind, M_bind, mret, M_ret.
  by destruct (getUsers wr w).
Qed.

Lemma server_post config wr r w :
  Method r = "POST" → Path r = "/users" →
  server config wr r w =
    (Some (createUser wr (Payload r) config w).1, (createUser wr (Payload r) config w).2).
Proof.
  intros Hm Hp. unfold server, cors_Handler, Router_ServeHTTP, routes.
  rewrite decide_False by (rewrite Hm; by intros [? _]).
  cbn [Router_Match route_path route_methods].
  rewrite decide_False
    by (rewrite Hm; intros [_ Hin]; apply list_elem_of_singleton in Hin; discriminate Hin).
  rewrite decide_True by (rewrite Hm, Hp; split; [done|by left]).
  cbn [route_func]. unfold mbind, M_bind, mret, M_ret.
  by destruct (createUser wr (Payload r) config w).
Qed.

Lemma server_other config wr r w :
  ¬ (Path r = "/users" ∧ (Method r = "GET" ∨ Method r = "POST")) →
  server config wr r w = (None, w).
Proof.
  intros Hno. unfold server, cors_Handler, Router_ServeHTTP, routes.
  destruct (decide (Method r = "OPTIONS" ∧ _)); [done|].
  cbn [Router_Match route_path route_methods].
  rewrite decide_False
    by (intros [Hp Hin]; apply list_elem_of_singleton in Hin; tauto).
  rewrite decide_False
    by (intros [Hp Hin]; apply list_elem_of_singleton in Hin; tauto).
  done.
Qed.

Lemma createUser_leaves_database_alone_frame r config w :
  db (createUser newWriter r config w).2 = db w ∧
  filter is_db_call (new_calls w (createUser newWriter r config w).2) = [].
Proof.
  destruct (FormFile r "photo") as [[file header]|e] eqn:Hf.
  - rewrite (createUser_run _ _ _ _ _ _ Hf), uploadToBlobStorage_run.
    destruct (blobClientErr (answers w)) as [e1|];
      [|destruct (uploadErr (answers w)) as [e2|]];
      cbn [fst snd log_Printf db calls];
      try (split; [done|by erewrite new_calls_app by reflexivity]).
    rewrite sendToServiceBus_run. cbn [answers].
    destruct (busClientErr (answers w)) as [e3|];
      [|destruct (senderErr (answers w)) as [e4|];
        [|destruct (sendErr (answers w)) as [e5|]]];
      cbn [fst snd log_Printf db calls]; tidy;
      (split; [done|by erewrite new_calls_app by reflexivity]).
  - rewrite (createUser_no_photo _ _ _ _ _ Hf). cbn. split; [done|].
    by rewrite new_calls_same.
Qed.

Lemma server_cases config wr r w :
  (Method r = "GET" ∧ Path r = "/users") ∨
  (Method r = "POST" ∧ Path r = "/users") ∨
  server config wr r w = (None, w).
Proof.
  destruct (decide (Path r = "/users")) as [Hp|Hp];
    [destruct (decide (Method r = "GET")) as [Hg|Hg];
     [|destruct (decide (Method r = "POST")) as [Ho|Ho]]|]; try tauto;
    right; right; apply server_other; tauto.
Qed.

(** X17: what the served handler can do depends on method and path
    alone.  A request changes the blob store or a queue only if it is a
    POST to "/users", it queries the database only if it is a GET to
    "/users", and when no handler of the program runs (any other method
    or path, preflight requests included) the world is left exactly as
    it was. *)
Theorem server_effects_by_route config r w :
  let out := server config newWriter r w in
  (blobs out.2 ≠ blobs w ∨ queues out.2 ≠ queues w →
     Method r = "POST" ∧ Path r = "/users") ∧
  (filter is_db_call (new_calls w out.2) ≠ [] →
     Method r = "GET" ∧ Path r = "/users") ∧
  (out.1 = None → out.2 = w ∧ ¬ (Path r = "/users" ∧ Method r ∈ ["GET"; "POST"])).
Proof.
  destruct (server_cases config newWriter r w) as [[Hm Hp]|[[Hm Hp]|Hn]].
  - rewrite (server_get _ _ _ _ Hm Hp). cbn [fst snd].
    destruct (getUsers_frame newWriter w) as (Hb & Hq & _).
    split; [intros [?|?]; done|]. split; [done|]. done.
  - rewrite (server_post _ _ _ _ Hm Hp). cbn [fst snd].
    destruct (createUser_leaves_database_alone_frame (Payload r) config w) as [_ Hc].
    split; [done|]. split; [by rewrite Hc|]. done.
  - destruct (decide (Path r = "/users" ∧ Method r ∈ ["GET"; "POST"])) as [[Hp Hin]|Hno].
    + apply elem_of_cons in Hin as [Hg|Hin];
        [rewrite (server_get _ _ _ _ Hg Hp) in Hn; discriminate Hn|].
      apply list_elem_of_singleton in Hin.
      rewrite (server_post _ _ _ _ Hin Hp) in Hn. discriminate Hn.
    + rewrite Hn. cbn [fst snd]. split; [intros [?|?]; done|].
      split; [by rewrite new_calls_same|]. done.
Qed.

(** ** Properties of the startup *)

Ltac boot_run :=
  unfold main, initDB, defer, os_Open, File_Close, Decode, sql_Open, db_Ping, db_Close,
    http_ListenAndServe, log_Fatal, log_Fatalf, log_Println, os_Exit, emit, host,
    the_source, boot, mbind, P_bind, mret, P_ret;
  cbn [fst snd trace db_source app fs_open sql_open db_ping listen].

(** What [main] does, by what it finds on the host. *)
Lemma main_run h :
  main h boot =
  let opened := FileOpen "config.json" in
  match fs_open h "config.json" with
  | Err e =>
      (None, mkProc [opened; Log "Error opening config file: %v" (Some e); Exit 1] None)
  | Ok (Err e) =>
      (None, mkProc [opened; Log "Error decoding config file: %v" (Some e); Exit 1] None)
  | Ok (Ok config) =>
      let source := Database_ConnectionString config in
      match sql_open h "sqlserver" source with
      | Some e =>
          (None, mkProc [opened; SqlOpen "sqlserver" source;
                         Log "Error connecting to the database: %v\n" (Some e); Exit 1]
                        None)
      | None =>
          match db_ping h source with
          | Some e =>
              (None, mkProc [opened; SqlOpen "sqlserver" source; SqlPing source;
                             Log "Cannot ping the database: %v\n" (Some e); Exit 1]
                            (Some source))
          | None =>
              (None, mkProc [opened; SqlOpen "sqlserver" source; SqlPing source;
                             Log "Successfully connected to the Azure SQL Database!" None;
                             Log "Starting server on port 8080..." None;
                             Listen ":8080" config;
                             Log "%v" (Some (listen h ":8080")); Exit 1]
                            (Some source))
          end
      end
  end.
Proof.
  boot_run. destruct (fs_open h "config.json") as [[config|e]|e]; cbn; [|done|done].
  destruct (sql_open h "sqlserver" _) as [e|]; cbn; [done|].
  by destruct (db_ping h _) as [e|].
Qed.

Ltac in_list :=
  repeat match goal with
         | H : _ ∈ _ :: _ |- _ => apply elem_of_cons in H as [H|H]
         | H : _ ∈ [] |- _ => by apply elem_of_nil in H
         end.

(** X18: [main] starts to listen exactly when the configuration file
    opens and decodes, [sql.Open] succeeds and the database answers the
    ping; the address is then ":8080", the handlers are given the decoded
    configuration, and the database was opened with the driver
    "sqlserver" on the connection string of that configuration. *)
Theorem main_listens_iff h addr config :
  Listen addr config ∈ trace (main h boot).2 ↔
  addr = ":8080" ∧
  fs_open h "config.json" = Ok (Ok config) ∧
  sql_open h "sqlserver" (Database_ConnectionString config) = None ∧
  db_ping h (Database_ConnectionString config) = None.
Proof.
  rewrite main_run. cbn zeta.
  destruct (fs_open h "config.json") as [[c|e]|e]; cbn [snd trace].
  - destruct (sql_open h "sqlserver" (Database_ConnectionString c)) as [e|] eqn:Ho;
      [|destruct (db_ping h (Database_ConnectionString c)) as [e|] eqn:Hp];
      cbn [snd trace].
    + split; [intros H; in_list; discriminate H|].
      intros (_ & [= <-] & Ho' & _). congruence.
    + split; [intros H; in_list; discriminate H|].
      intros (_ & [= <-] & _ & Hp'). congruence.
    + split.
      * intros H. in_list; try discriminate H. by injection H as -> ->.
      * intros (-> & [= <-] & _). set_solver.
  - split; [intros H; in_list; discriminate H|]. by intros (_ & [=] & _).
  - split; [intros H; in_list; discriminate H|]. by intros (_ & [=] & _).
Qed.

(** X19: [main] never returns and never runs its deferred calls.  On
    every host the process ends through [os.Exit(1)], as its last event,
    and neither the configuration file nor the database handle is ever
    closed. *)
Theorem main_exits_without_closing h :
  let out := main h boot in
  out.1 = None ∧
  last (trace out.2) = Some (Exit 1) ∧
  (∀ path, FileClose path ∉ trace out.2) ∧
  (∀ source, SqlClose source ∉ trace out.2).
Proof.
  rewrite main_run. cbn zeta.
  destruct (fs_open h "config.json") as [[c|e]|e];
    [destruct (sql_open h "sqlserver" (Database_ConnectionString c)) as [e|];
     [|destruct (db_ping h (Database_ConnectionString c)) as [e|]]|..];
    cbn [fst snd trace]; (split; [done|]); (split; [done|]);
    split; intros x H; in_list; discriminate H.
Qed.

(** X20: the startup fails fast and in order.  The database is opened
    only after the configuration was read, with the driver "sqlserver"
    and the connection string read; it is pinged only on the handle that
    was opened; and the line logged right before the exit is the one of
    the first step that failed, with that step's error, or the
    listener's error when every step succeeded. *)
Theorem main_fails_fast h :
  let t := trace (main h boot).2 in
  (∀ driver source, SqlOpen driver source ∈ t →
     driver = "sqlserver" ∧
     ∃ config, fs_open h "config.json" = Ok (Ok config) ∧
               source = Database_ConnectionString config) ∧
  (∀ source, SqlPing source ∈ t → sql_open h "sqlserver" source = None) ∧
  ∃ before format e,
    t = (before ++ [Log format (Some e); Exit 1])%list ∧
    ((format = "Error opening config file: %v" ∧ fs_open h "config.json" = Err e) ∨
     (format = "Error decoding config file: %v" ∧ fs_open h "config.json" = Ok (Err e)) ∨
     (∃ config, fs_open h "config.json" = Ok (Ok config) ∧
        ((format = "Error connecting to the database: %v\n" ∧
          sql_open h "sqlserver" (Database_ConnectionString config) = Some e) ∨
         (format = "Cannot ping the database: %v\n" ∧
          sql_open h "sqlserver" (Database_ConnectionString config) = None ∧
          db_ping h (Database_ConnectionString config) = Some e) ∨
         (format = "%v" ∧ e = listen h ":8080" ∧
          sql_open h "sqlserver" (Database_ConnectionString config) = None ∧
          db_ping h (Database_ConnectionString config) = None)))).
Proof.
  rewrite main_run. cbn zeta.
  destruct (fs_open h "config.json") as [[c|e]|e] eqn:Hf;
    [destruct (sql_open h "sqlserver" (Database_ConnectionString c)) as [e|] eqn:Ho;
     [|destruct (db_ping h (Database_ConnectionString c)) as [e|] eqn:Hp]|..];
    cbn [snd trace];
    (split; [intros d s H; in_list;
             first [discriminate H
                   |injection H as -> ->; split; [done|by exists c]]|]);
    (split; [intros s H; in_list;
             first [discriminate H|by injection H as ->]|]).
  - exists [FileOpen "config.json"; SqlOpen "sqlserver" (Database_ConnectionString c)].
    eexists _, e. split; [done|]. right; right. exists c. split; [done|]. by left.
  - exists [FileOpen "config.json"; SqlOpen "sqlserver" (Database_ConnectionString c);
            SqlPing (Database_ConnectionString c)].
    eexists _, e. split; [done|]. right; right. exists c. split; [done|].
    right; left. done.
  - eexists [_; _; _; _; _; _], _, _. split; [done|]. right; right. exists c.
    split; [done|]. right; right. done.
  - exists [FileOpen "config.json"]. eexists _, e. split; [done|]. right; left. done.
  - exists [FileOpen "config.json"]. eexists _, e. split; [done|]. by left.
Qed.

Example main_on_good_host :
  trace (main good_host boot).2 =
    [FileOpen "config.json";
     SqlOpen "sqlserver" "sqlserver://users-db";
     SqlPing "sqlserver://users-db";
     Log "Successfully connected to the Azure SQL Database!" None;
     Log "Starting server on port 8080..." None;
     Listen ":8080" sample_config;
     Log "%v" (Some "address in use");
     Exit 1].
Proof. reflexivity. Qed.

Example main_without_database :
  trace (main no_database boot).2 =
    [FileOpen "config.json";
     SqlOpen "sqlserver" "sqlserver://users-db";
     SqlPing "sqlserver://users-db";
     Log "Cannot ping the database: %v\n" (Some "timeout");
     Exit 1].
Proof. reflexivity. Qed.
